(** * gpmcc.dists.normal_uc : the uncollapsed Normal component model

    A shallow embedding of [src/gpmcc/dists/normal_uc.py] (class [NormalUC])
    and the properties its documentation states about it.

    Conventions of the embedding.
    - Python numbers are real numbers ([R]); the count [N] is an integer
      ([Z]) injected with [IZR] wherever the code mixes it with floats.
      Every division of the file has a float literal on one side
      ([N / 2.], [1./...], [2./s]), so none of them is an integer division.
    - [mu] and [rho] may be [None] (the constructor's defaults): they are
      [option R].
    - A method is a computation in the monad [M]: it returns, raises a
      Python exception, or asks the random number generator for a draw.
      The draws are the only effect; an interpreter [run] threads a
      generator state through them, and [wp] is the matching weakest
      precondition over the supports of the two distributions.
    - The arithmetic that can raise is the one of CPython 2.7, which this
      code base is written for ([super(NormalUC, self)], the coding line):
      float division by zero raises [ZeroDivisionError], a negative float to
      the power [.5] raises [ValueError], [math.log] outside its domain
      raises [ValueError], arithmetic on [None] raises [TypeError].
    - Rounding, [nan] and [inf] are outside the model. *)

From Stdlib Require Import Reals Lra Psatz ZArith String List.

Local Open Scope R_scope.

(** ** Exceptions and the computation monad *)

(** The built-in exceptions the arithmetic of the file can raise, and the
    three error classes of the documented taxonomy. *)
Inductive exn : Type :=
| ZeroDivisionError
| ValueError
| TypeError
| ConfigError
| StateError
| NumericError.

(** A computation: a value, an exception, or a request for a Gamma draw
    (shape, rate) or a Normal draw (mean, precision) followed by the rest of
    the computation. *)
Inductive M (A : Type) : Type :=
| Ret (a : A)
| Raise (e : exn)
| SampleGamma (shape rate : R) (k : R -> M A)
| SampleNormal (mean prec : R) (k : R -> M A).

Arguments Ret {A} a.
Arguments Raise {A} e.
Arguments SampleGamma {A} shape rate k.
Arguments SampleNormal {A} mean prec k.

Fixpoint bind {A B : Type} (c : M A) (f : A -> M B) : M B :=
  match c with
  | Ret a => f a
  | Raise e => Raise e
  | SampleGamma shape rate k => SampleGamma shape rate (fun x => bind (k x) f)
  | SampleNormal mean prec k => SampleNormal mean prec (fun x => bind (k x) f)
  end.

Notation "x <- c ;; k" := (bind c (fun x => k))
  (at level 61, c at next level, right associativity).
Notation "' p <- c ;; k" := (bind c (fun x => let 'p := x in k))
  (at level 61, p pattern, c at next level, right associativity).

(** The injected primitives [sample_gamma(shape, rate)] and
    [sample_normal(mean, precision)] as requests. *)
Definition sample_gamma (shape rate : R) : M R := SampleGamma shape rate Ret.
Definition sample_normal (mean prec : R) : M R := SampleNormal mean prec Ret.

(** *** Running a computation against a generator *)

Inductive result (A : Type) : Type :=
| Ok (a : A)
| Error (e : exn).

Arguments Ok {A} a.
Arguments Error {A} e.

(** A random number generator with state [G]. *)
Record sampler (G : Type) : Type := {
  draw_gamma : R -> R -> G -> R * G;
  draw_normal : R -> R -> G -> R * G
}.

Arguments draw_gamma {G} _ _ _ _.
Arguments draw_normal {G} _ _ _ _.

Fixpoint run {G A : Type} (h : sampler G) (c : M A) (g : G) : result A * G :=
  match c with
  | Ret a => (Ok a, g)
  | Raise e => (Error e, g)
  | SampleGamma shape rate k =>
      let (x, g') := draw_gamma h shape rate g in run h (k x) g'
  | SampleNormal mean prec k =>
      let (x, g') := draw_normal h mean prec g in run h (k x) g'
  end.

(** The generator honours the distributions: a Gamma draw with positive
    shape and rate is positive (the support of the Gamma distribution). *)
Definition sound_sampler {G : Type} (h : sampler G) : Prop :=
  forall shape rate g, 0 < shape -> 0 < rate ->
    0 < fst (draw_gamma h shape rate g).

(** *** Outcomes *)

(** [returns c a]: some sequence of draws makes [c] return [a]. *)
Inductive returns {A : Type} : M A -> A -> Prop :=
| returns_Ret : forall a, returns (Ret a) a
| returns_Gamma : forall shape rate k x a,
    returns (k x) a -> returns (SampleGamma shape rate k) a
| returns_Normal : forall mean prec k x a,
    returns (k x) a -> returns (SampleNormal mean prec k) a.

(** [wp c Q]: [c] raises nothing, asks for draws only from well-formed
    distributions (positive shape and rate, positive precision) and returns
    a value satisfying [Q] whatever the draws, each taken in the support of
    its distribution. *)
Fixpoint wp {A : Type} (c : M A) (Q : A -> Prop) : Prop :=
  match c with
  | Ret a => Q a
  | Raise _ => False
  | SampleGamma shape rate k =>
      0 < shape /\ 0 < rate /\ forall x, 0 < x -> wp (k x) Q
  | SampleNormal mean prec k =>
      0 < prec /\ forall x, wp (k x) Q
  end.

(** ** Python and SciPy primitives *)

(** [a / b] on floats. *)
Definition py_div (a b : R) : M R :=
  if Req_dec_T b 0 then Raise ZeroDivisionError else Ret (a / b).

(** [a ** .5] on floats. *)
Definition py_pow_half (a : R) : M R :=
  if Rlt_dec a 0 then Raise ValueError else Ret (sqrt a).

(** [math.log(a)]. *)
Definition py_log (a : R) : M R :=
  if Rlt_dec 0 a then Ret (ln a) else Raise ValueError.

(** A value used as a number: [None] in arithmetic raises [TypeError]. *)
Definition num (v : option R) : M R :=
  match v with
  | Some a => Ret a
  | None => Raise TypeError
  end.

Definition LOG2 : R := ln 2.
Definition LOGPI : R := ln PI.
Definition LOG2PI : R := ln (2 * PI).

(** [scipy.stats.norm.logpdf(x, loc, scale)] for [scale > 0]: the standard
    log-density [-y**2/2 - log(sqrt(2*pi))] at [y = (x - loc)/scale], minus
    [log(scale)].  Every call below passes a scale of the form
    [1./a**.5], which is positive whenever it is computed at all (lemma
    [inv_sqrt_scale_pos]). *)
Definition norm_logpdf (x loc scale : R) : R :=
  let y := (x - loc) / scale in
  - (y * y) / 2 - ln (sqrt (2 * PI)) - ln scale.

(** [np.random.normal(loc, scale)]: a Normal draw with mean [loc] and
    standard deviation [scale], that is with precision [1/scale**2]. *)
Definition np_random_normal (loc scale : R) : M R :=
  sample_normal loc (1 / (scale * scale)).

(** ** The parent class [Normal] *)

(** The attributes the parent class holds: sufficient statistics and
    hyperparameters. *)
Module Normal.
Record t : Type := Build {
  N : Z;
  sum_x : R;
  sum_x_sq : R;
  m : R;
  r : R;
  s : R;
  nu : R
}.
End Normal.

(** What [NormalUC] uses of its parent: the constructor and two static
    methods.  The static methods receive numbers only, never the object. *)
Class NormalClass : Type := {
  Normal__init__ : Z -> R -> R -> R -> R -> R -> R -> M Normal.t;
  posterior_hypers : Z -> R -> R -> R -> R -> R -> R -> M (R * R * R * R);
  sample_parameters : R -> R -> R -> R -> M (R * R)
}.

(** ** The class [NormalUC] *)

Record NormalUC : Type := Build_NormalUC {
  super : Normal.t;
  mu : option R;
  rho : option R
}.

Definition is_None {A : Type} (v : option A) : bool :=
  match v with
  | None => true
  | Some _ => false
  end.

Section NormalUC.

Context {parent : NormalClass}.

(** [scipy.stats.gamma.logpdf(x, a, scale=...)]. *)
Variable gamma_logpdf : R -> R -> R -> R.

Definition calc_predictive_logp (x : R) (mu rho : option R) : M R :=
  rho' <- num rho ;;
  p <- py_pow_half rho' ;;
  scale <- py_div 1 p ;;
  loc <- num mu ;;
  Ret (norm_logpdf x loc scale).

Definition calc_log_likelihood (N : Z) (sum_x sum_x_sq : R)
    (rho mu : option R) : M R :=
  rho' <- num rho ;;
  l <- py_log rho' ;;
  mu' <- num mu ;;
  Ret (- (IZR N / 2) * LOG2PI + (IZR N / 2) * l
       - 0.5 * (rho' * (IZR N * mu' * mu' - 2 * mu' * sum_x + sum_x_sq))).

Definition calc_log_prior (mu rho : option R) (m r s nu : R) : M R :=
  scale_rho <- py_div 2 s ;;
  rho' <- num rho ;;
  let log_rho := gamma_logpdf rho' (nu / 2) scale_rho in
  p <- py_pow_half (r * rho') ;;
  scale_mu <- py_div 1 p ;;
  mu' <- num mu ;;
  let log_mu := norm_logpdf mu' m scale_mu in
  Ret (log_mu + log_rho).

Definition predictive_logp (self : NormalUC) (x : R) : M R :=
  calc_predictive_logp x (mu self) (rho self).

Definition marginal_logp (self : NormalUC) : M R :=
  data_logp <- calc_log_likelihood (Normal.N (super self))
    (Normal.sum_x (super self)) (Normal.sum_x_sq (super self))
    (rho self) (mu self) ;;
  prior_logp <- calc_log_prior (mu self) (rho self) (Normal.m (super self))
    (Normal.r (super self)) (Normal.s (super self))
    (Normal.nu (super self)) ;;
  Ret (data_logp + prior_logp).

Definition singleton_logp (self : NormalUC) (x : R) : M R :=
  calc_predictive_logp x (mu self) (rho self).

Definition simulate (self : NormalUC) : M R :=
  rho' <- num (rho self) ;;
  p <- py_pow_half rho' ;;
  scale <- py_div 1 p ;;
  loc <- num (mu self) ;;
  np_random_normal loc scale.

Definition transition_params (self : NormalUC) : M NormalUC :=
  '(rn, nun, mn, sn) <- posterior_hypers (Normal.N (super self))
    (Normal.sum_x (super self)) (Normal.sum_x_sq (super self))
    (Normal.m (super self)) (Normal.r (super self))
    (Normal.s (super self)) (Normal.nu (super self)) ;;
  '(mu', rho') <- sample_parameters mn rn sn nun ;;
  Ret {| super := super self; mu := Some mu'; rho := Some rho' |}.

(** The constructor; [distargs] is only handed to the parent and is left
    out. *)
Definition __init__ (N : Z) (sum_x sum_x_sq : R) (mu rho : option R)
    (m r s nu : R) : M NormalUC :=
  base <- Normal__init__ N sum_x sum_x_sq m r s nu ;;
  let self := {| super := base; mu := mu; rho := rho |} in
  if (is_None mu || is_None rho)%bool
  then transition_params self
  else Ret self.

Definition name : string := "normal_uc"%string.

Definition is_collapsed : bool := false.

End NormalUC.

(** ** The parent's methods *)

(** Modelled from the spec: [gpmcc/dists/normal.py] (class [Normal]) is not
    among the sources.  Its constructor keeps the sufficient statistics and
    the hyperparameters and refuses hyperparameters that are not positive
    ([ConfigError] at construction). *)
Definition Normal_init (N : Z) (sum_x sum_x_sq m r s nu : R) : M Normal.t :=
  if Rlt_dec 0 r then
    if Rlt_dec 0 s then
      if Rlt_dec 0 nu then
        Ret (Normal.Build N sum_x sum_x_sq m r s nu)
      else Raise ConfigError
    else Raise ConfigError
  else Raise ConfigError.

(** Modelled from the spec: [Normal.posterior_hypers], the Normal-Gamma
    conjugate update
    [rn = r + N], [nun = nu + N], [mn = (r*m + sum_x)/rn],
    [sn = s + sum_x_sq + r*m*m - rn*mn*mn]. *)
Definition Normal_posterior_hypers (N : Z) (sum_x sum_x_sq m r s nu : R)
    : M (R * R * R * R) :=
  let rn := r + IZR N in
  let nun := nu + IZR N in
  let mn := (r * m + sum_x) / rn in
  let sn := s + sum_x_sq + r * m * m - rn * mn * mn in
  Ret (rn, nun, mn, sn).

(** Modelled from the spec: [Normal.sample_parameters], which draws
    [rho ~ Gamma(nu/2, rate=s/2)] and then [mu ~ Normal(m, precision=r*rho)]
    and returns the pair [(mu, rho)]. *)
Definition Normal_sample_parameters (m r s nu : R) : M (R * R) :=
  rho <- sample_gamma (nu / 2) (s / 2) ;;
  mu <- sample_normal m (r * rho) ;;
  Ret (mu, rho).

#[export] Instance Normal_spec : NormalClass := {
  Normal__init__ := Normal_init;
  posterior_hypers := Normal_posterior_hypers;
  sample_parameters := Normal_sample_parameters
}.

(** ** Sufficient statistics of a data set *)

Fixpoint sum_list (xs : list R) : R :=
  match xs with
  | nil => 0
  | cons x xs' => x + sum_list xs'
  end.

Fixpoint sum_sq_list (xs : list R) : R :=
  match xs with
  | nil => 0
  | cons x xs' => x * x + sum_sq_list xs'
  end.

(** What the statistics of real data always satisfy: the sum of squares is
    not negative and bounds the squared sum (Cauchy-Schwarz). *)
Definition valid_suffstats (N : Z) (sum_x sum_x_sq : R) : Prop :=
  0 <= sum_x_sq /\ sum_x * sum_x <= IZR N * sum_x_sq.

(** The log-density of a data set under Normal(mu, precision rho): the sum
    of the predictive log-densities of its points. *)
Fixpoint data_logpdf (mu0 rho0 : R) (xs : list R) : R :=
  match xs with
  | nil => 0
  | cons x xs' => norm_logpdf x mu0 (1 / sqrt rho0) + data_logpdf mu0 rho0 xs'
  end.

(** The statistics and hyperparameters of two objects agree. *)
Definition same_stats_and_hypers (a b : NormalUC) : Prop :=
  Normal.N (super a) = Normal.N (super b)
  /\ Normal.sum_x (super a) = Normal.sum_x (super b)
  /\ Normal.sum_x_sq (super a) = Normal.sum_x_sq (super b)
  /\ Normal.m (super a) = Normal.m (super b)
  /\ Normal.r (super a) = Normal.r (super b)
  /\ Normal.s (super a) = Normal.s (super b)
  /\ Normal.nu (super a) = Normal.nu (super b).

(** The sum of [predictive_logp(x)] over the points of a data set, on one
    state. *)
Fixpoint predictive_logp_sum (self : NormalUC) (xs : list R) : M R :=
  match xs with
  | nil => Ret 0
  | cons x xs' =>
      p <- predictive_logp self x ;;
      q <- predictive_logp_sum self xs' ;;
      Ret (p + q)
  end.


(** A generator that returns the mean of the distribution it is asked. *)
Definition mean_sampler : sampler unit := {|
  draw_gamma := fun shape rate g => (shape / rate, g);
  draw_normal := fun mean prec g => (mean, g)
|}.

(** ** Generic facts about computations *)

Lemma bind_Ret_l {A B : Type} (a : A) (f : A -> M B) : bind (Ret a) f = f a.
Proof. reflexivity. Qed.

Lemma returns_bind_inv {A B : Type} (c : M A) (f : A -> M B) (b : B) :
  returns (bind c f) b -> exists a, returns c a /\ returns (f a) b.
Proof.
  induction c as [a | e | shape rate k IH | mean prec k IH]; simpl; intros Hr.
  - exists a. split; [constructor | exact Hr].
  - inversion Hr.
  - inversion Hr as [ | sh ra k' x b' Hk | ]; subst.
    destruct (IH x Hk) as [a [Ha Hb]].
    exists a. split; [econstructor; exact Ha | exact Hb].
  - inversion Hr as [ | | me pr k' x b' Hk]; subst.
    destruct (IH x Hk) as [a [Ha Hb]].
    exists a. split; [econstructor; exact Ha | exact Hb].
Qed.

Lemma returns_bind {A B : Type} (c : M A) (f : A -> M B) (a : A) (b : B) :
  returns c a -> returns (f a) b -> returns (bind c f) b.
Proof.
  intros Hc Hf. induction Hc; simpl.
  - exact Hf.
  - econstructor. apply IHHc. exact Hf.
  - econstructor. apply IHHc. exact Hf.
Qed.

Lemma wp_mono {A : Type} (c : M A) (P Q : A -> Prop) :
  (forall a, P a -> Q a) -> wp c P -> wp c Q.
Proof.
  intros HPQ.
  induction c as [a | e | shape rate k IH | mean prec k IH]; simpl.
  - apply HPQ.
  - exact (fun H => H).
  - intros [Hs [Hr Hk]]. repeat split; try assumption.
    intros x Hx. apply IH, Hk, Hx.
  - intros [Hp Hk]. split; [assumption | ].
    intros x. apply IH, Hk.
Qed.

Lemma wp_bind {A B : Type} (c : M A) (f : A -> M B) (Q : B -> Prop) :
  wp (bind c f) Q <-> wp c (fun a => wp (f a) Q).
Proof.
  induction c as [a | e | shape rate k IH | mean prec k IH]; simpl.
  - reflexivity.
  - reflexivity.
  - split; intros [Hs [Hr Hk]]; repeat split; try assumption;
      intros x Hx; apply IH, Hk, Hx.
  - split; intros [Hp Hk]; (split; [assumption | ]);
      intros x; apply IH, Hk.
Qed.

(** Adequacy of [wp]: against a generator that honours the Gamma support,
    a computation with a weakest precondition returns, and its value
    satisfies the postcondition. *)
Lemma wp_run {G A : Type} (h : sampler G) (c : M A) (Q : A -> Prop) :
  sound_sampler h -> wp c Q ->
  forall g, exists a g', run h c g = (Ok a, g') /\ Q a.
Proof.
  intros Hh.
  induction c as [a | e | shape rate k IH | mean prec k IH]; simpl;
    intros Hwp g.
  - exists a, g. split; [reflexivity | exact Hwp].
  - contradiction.
  - destruct Hwp as [Hs [Hr Hk]].
    pose proof (Hh shape rate g Hs Hr) as Hpos.
    destruct (draw_gamma h shape rate g) as [x g1]. simpl in Hpos.
    apply IH, Hk, Hpos.
  - destruct Hwp as [_ Hk].
    destruct (draw_normal h mean prec g) as [x g1].
    apply IH, Hk.
Qed.

(** ** The primitives where they are defined *)

Lemma py_div_ok (a b : R) : b <> 0 -> py_div a b = Ret (a / b).
Proof.
  intros Hb. unfold py_div.
  destruct (Req_dec_T b 0) as [E | _]; [contradiction | reflexivity].
Qed.

Lemma py_div_zero (a : R) : py_div a 0 = Raise ZeroDivisionError.
Proof.
  unfold py_div.
  destruct (Req_dec_T 0 0) as [_ | NE]; [reflexivity | now elim NE].
Qed.

Lemma py_pow_half_ok (a : R) : 0 <= a -> py_pow_half a = Ret (sqrt a).
Proof.
  intros Ha. unfold py_pow_half.
  destruct (Rlt_dec a 0) as [L | _]; [lra | reflexivity].
Qed.

Lemma py_pow_half_neg (a : R) : a < 0 -> py_pow_half a = Raise ValueError.
Proof.
  intros Ha. unfold py_pow_half.
  destruct (Rlt_dec a 0) as [_ | NL]; [reflexivity | contradiction].
Qed.

Lemma py_log_ok (a : R) : 0 < a -> py_log a = Ret (ln a).
Proof.
  intros Ha. unfold py_log.
  destruct (Rlt_dec 0 a) as [_ | NL]; [reflexivity | contradiction].
Qed.

Lemma returns_Ret_inv {A : Type} (a b : A) : returns (Ret a) b -> b = a.
Proof. intros H. inversion H. reflexivity. Qed.

Lemma returns_Raise_inv {A : Type} (e : exn) (b : A) :
  returns (Raise e) b -> False.
Proof. intros H. inversion H. Qed.

Lemma returns_num (v : option R) (a : R) : returns (num v) a -> v = Some a.
Proof.
  destruct v as [b | ]; simpl; intros H.
  - apply returns_Ret_inv in H. now subst.
  - now apply returns_Raise_inv in H.
Qed.

Lemma returns_py_div (a b c : R) :
  returns (py_div a b) c -> b <> 0 /\ c = a / b.
Proof.
  unfold py_div. destruct (Req_dec_T b 0) as [E | NE]; intros H.
  - now apply returns_Raise_inv in H.
  - apply returns_Ret_inv in H. now split.
Qed.

Lemma returns_py_pow_half (a p : R) :
  returns (py_pow_half a) p -> 0 <= a /\ p = sqrt a.
Proof.
  unfold py_pow_half. destruct (Rlt_dec a 0) as [L | NL]; intros H.
  - now apply returns_Raise_inv in H.
  - apply returns_Ret_inv in H. split; [lra | exact H].
Qed.

Lemma returns_py_log (a l : R) :
  returns (py_log a) l -> 0 < a /\ l = ln a.
Proof.
  unfold py_log. destruct (Rlt_dec 0 a) as [L | NL]; intros H.
  - apply returns_Ret_inv in H. now split.
  - now apply returns_Raise_inv in H.
Qed.

(** The scale [1./a**.5] is computed only for a positive [a]. *)
Lemma returns_inv_sqrt_scale (a scale : R) :
  returns (p <- py_pow_half a ;; py_div 1 p) scale ->
  0 < a /\ scale = 1 / sqrt a.
Proof.
  intros H. apply returns_bind_inv in H. destruct H as [p [Hp Hd]].
  apply returns_py_pow_half in Hp. destruct Hp as [Ha ->].
  apply returns_py_div in Hd. destruct Hd as [Hnz ->].
  split; [ | reflexivity].
  destruct Ha as [Ha | <-]; [exact Ha | ].
  now rewrite sqrt_0 in Hnz.
Qed.

(** The scale [1./a**.5]: for a positive [a] it is [1/sqrt a]. *)
Lemma inv_sqrt_scale (a : R) :
  0 < a -> (p <- py_pow_half a ;; py_div 1 p) = Ret (1 / sqrt a).
Proof.
  intros Ha.
  rewrite py_pow_half_ok by lra. simpl.
  apply py_div_ok.
  apply Rgt_not_eq, sqrt_lt_R0, Ha.
Qed.

(** Whenever the scale [1./a**.5] is computed at all, it is positive: the
    log-density [norm_logpdf] is only ever asked inside its domain. *)
Lemma inv_sqrt_scale_pos (a scale : R) :
  returns (p <- py_pow_half a ;; py_div 1 p) scale -> 0 < scale.
Proof.
  unfold py_pow_half, py_div.
  destruct (Rlt_dec a 0) as [L | NL]; simpl; [intros H; inversion H | ].
  destruct (Req_dec_T (sqrt a) 0) as [E | NE]; [intros H; inversion H | ].
  intros H. inversion H; subst.
  apply Rdiv_lt_0_compat; [lra | ].
  destruct (sqrt_pos a) as [Hp | Hz]; [exact Hp | now elim NE].
Qed.

Lemma ln_sqrt_half (a : R) : 0 < a -> ln (sqrt a) = ln a / 2.
Proof.
  intros Ha.
  pose proof (sqrt_lt_R0 a Ha) as Hs.
  assert (E : ln a = ln (sqrt a) + ln (sqrt a)).
  { rewrite <- ln_mult by assumption. rewrite sqrt_sqrt by lra. reflexivity. }
  lra.
Qed.

(** ** The constant [log(2*pi)] *)

(** Bounds on pi from the Machin-like series of the library. *)
Lemma PI_bounds : 3.14159 < PI < 3.1416.
Proof.
  pose proof (PI_2_3_7_ineq 2) as [Hl Hu].
  unfold sum_f_R0, tg_alt, PI_2_3_7_tg, Ratan_seq in Hl, Hu.
  simpl in Hl, Hu.
  split; lra.
Qed.

(** A lower bound of [exp t] squares into one of [exp (2*t)]. *)
Lemma exp_double_lb (t t2 a b : R) :
  t2 = 2 * t -> 0 <= a -> a <= exp t -> b <= a * a -> b <= exp t2.
Proof.
  intros -> Ha Hexp Hb.
  replace (2 * t) with (t + t) by ring.
  rewrite exp_plus.
  apply Rle_trans with (a * a); [exact Hb | ].
  apply Rmult_le_compat; assumption.
Qed.

(** [(1 + x/2^15)^(2^15) <= exp x] at [x = 1.838], squaring fifteen times
    and rounding down. *)
Lemma exp_1_838_lower : 6.283633864634446 <= exp 1.838.
Proof.
  assert (H0 : 1.00005609130859375 <= exp 0.00005609130859375)
    by (pose proof (exp_ineq1_le 0.00005609130859375); lra).
  assert (H1 : 1.000112185763422 <= exp 0.0001121826171875)
    by (apply (exp_double_lb 0.00005609130859375 _ 1.00005609130859375); [lra | lra | exact H0 | lra]).
  assert (H2 : 1.000224384112489 <= exp 0.000224365234375)
    by (apply (exp_double_lb 0.0001121826171875 _ 1.000112185763422); [lra | lra | exact H1 | lra]).
  assert (H3 : 1.000448818573207 <= exp 0.00044873046875)
    by (apply (exp_double_lb 0.000224365234375 _ 1.000224384112489); [lra | lra | exact H2 | lra]).
  assert (H4 : 1.000897838584525 <= exp 0.0008974609375)
    by (apply (exp_double_lb 0.00044873046875 _ 1.000448818573207); [lra | lra | exact H3 | lra]).
  assert (H5 : 1.001796483283173 <= exp 0.001794921875)
    by (apply (exp_double_lb 0.0008974609375 _ 1.000897838584525); [lra | lra | exact H4 | lra]).
  assert (H6 : 1.003596193918532 <= exp 0.00358984375)
    by (apply (exp_double_lb 0.001794921875 _ 1.001796483283173); [lra | lra | exact H5 | lra]).
  assert (H7 : 1.007205320447763 <= exp 0.0071796875)
    by (apply (exp_double_lb 0.00358984375 _ 1.003596193918532); [lra | lra | exact H6 | lra]).
  assert (H8 : 1.01446255753828 <= exp 0.014359375)
    by (apply (exp_double_lb 0.0071796875 _ 1.007205320447763); [lra | lra | exact H7 | lra]).
  assert (H9 : 1.029134280647108 <= exp 0.02871875)
    by (apply (exp_double_lb 0.014359375 _ 1.01446255753828); [lra | lra | exact H8 | lra]).
  assert (H10 : 1.05911736760304 <= exp 0.0574375)
    by (apply (exp_double_lb 0.02871875 _ 1.029134280647108); [lra | lra | exact H9 | lra]).
  assert (H11 : 1.121729598358392 <= exp 0.114875)
    by (apply (exp_double_lb 0.0574375 _ 1.05911736760304); [lra | lra | exact H10 | lra]).
  assert (H12 : 1.258277291833279 <= exp 0.22975)
    by (apply (exp_double_lb 0.114875 _ 1.121729598358392); [lra | lra | exact H11 | lra]).
  assert (H13 : 1.58326174314329 <= exp 0.4595)
    by (apply (exp_double_lb 0.22975 _ 1.258277291833279); [lra | lra | exact H12 | lra]).
  assert (H14 : 2.506717747301129 <= exp 0.919)
    by (apply (exp_double_lb 0.4595 _ 1.58326174314329); [lra | lra | exact H13 | lra]).
  assert (H15 : 6.283633864634446 <= exp 1.838)
    by (apply (exp_double_lb 0.919 _ 2.506717747301129); [lra | lra | exact H14 | lra]).
  exact H15.
Qed.

(** [(1 + x/2^16)^(2^16) <= exp x] at [x = -1.8378]. *)
Lemma exp_neg_1_8378_lower : 0.159163107561251 <= exp (-1.8378).
Proof.
  assert (H0 : 0.9999719573974609375 <= exp (-0.0000280426025390625))
    by (pose proof (exp_ineq1_le (-0.0000280426025390625)); lra).
  assert (H1 : 0.999943915581309 <= exp (-0.000056085205078125))
    by (apply (exp_double_lb (-0.0000280426025390625) _ 0.9999719573974609375); [lra | lra | exact H0 | lra]).
  assert (H2 : 0.99988783430808 <= exp (-0.00011217041015625))
    by (apply (exp_double_lb (-0.000056085205078125) _ 0.999943915581309); [lra | lra | exact H1 | lra]).
  assert (H3 : 0.999775681197302 <= exp (-0.0002243408203125))
    by (apply (exp_double_lb (-0.00011217041015625) _ 0.99988783430808); [lra | lra | exact H2 | lra]).
  assert (H4 : 0.999551412713529 <= exp (-0.000448681640625))
    by (apply (exp_double_lb (-0.0002243408203125) _ 0.999775681197302); [lra | lra | exact H3 | lra]).
  assert (H5 : 0.999103026657611 <= exp (-0.00089736328125))
    by (apply (exp_double_lb (-0.000448681640625) _ 0.999551412713529); [lra | lra | exact H4 | lra]).
  assert (H6 : 0.998206857876398 <= exp (-0.0017947265625))
    by (apply (exp_double_lb (-0.00089736328125) _ 0.999103026657611); [lra | lra | exact H5 | lra]).
  assert (H7 : 0.996416931111471 <= exp (-0.003589453125))
    by (apply (exp_double_lb (-0.0017947265625) _ 0.998206857876398); [lra | lra | exact H6 | lra]).
  assert (H8 : 0.992846700605601 <= exp (-0.00717890625))
    by (apply (exp_double_lb (-0.003589453125) _ 0.996416931111471); [lra | lra | exact H7 | lra]).
  assert (H9 : 0.985744570903427 <= exp (-0.0143578125))
    by (apply (exp_double_lb (-0.00717890625) _ 0.992846700605601); [lra | lra | exact H8 | lra]).
  assert (H10 : 0.971692359065581 <= exp (-0.028715625))
    by (apply (exp_double_lb (-0.0143578125) _ 0.985744570903427); [lra | lra | exact H9 | lra]).
  assert (H11 : 0.944186040666433 <= exp (-0.05743125))
    by (apply (exp_double_lb (-0.028715625) _ 0.971692359065581); [lra | lra | exact H10 | lra]).
  assert (H12 : 0.891487279389355 <= exp (-0.1148625))
    by (apply (exp_double_lb (-0.05743125) _ 0.944186040666433); [lra | lra | exact H11 | lra]).
  assert (H13 : 0.794749569313033 <= exp (-0.229725))
    by (apply (exp_double_lb (-0.1148625) _ 0.891487279389355); [lra | lra | exact H12 | lra]).
  assert (H14 : 0.631626877923251 <= exp (-0.45945))
    by (apply (exp_double_lb (-0.229725) _ 0.794749569313033); [lra | lra | exact H13 | lra]).
  assert (H15 : 0.398952512915073 <= exp (-0.9189))
    by (apply (exp_double_lb (-0.45945) _ 0.631626877923251); [lra | lra | exact H14 | lra]).
  assert (H16 : 0.159163107561251 <= exp (-1.8378))
    by (apply (exp_double_lb (-0.9189) _ 0.398952512915073); [lra | lra | exact H15 | lra]).
  exact H16.
Qed.

(** [log(2*pi)] to three decimals. *)
Lemma ln_2PI_bounds : 1.8378 < ln (2 * PI) < 1.838.
Proof.
  pose proof PI_bounds as [Hl Hu].
  pose proof exp_1_838_lower as Hub.
  pose proof exp_neg_1_8378_lower as Hlb.
  assert (Hpos : 0 < 2 * PI) by lra.
  split.
  - rewrite <- (ln_exp 1.8378).
    apply ln_increasing; [apply exp_pos | ].
    assert (E : exp 1.8378 * exp (-1.8378) = 1).
    { rewrite <- exp_plus. replace (1.8378 + -1.8378) with 0 by lra.
      apply exp_0. }
    pose proof (exp_pos 1.8378) as Hp.
    destruct (Rlt_le_dec (exp 1.8378) (2 * PI)) as [H | H]; [exact H | ].
    exfalso.
    assert (H1 : 2 * PI * 0.159163107561251 <= exp 1.8378 * exp (-1.8378)).
    { apply Rmult_le_compat; lra. }
    lra.
  - rewrite <- (ln_exp 1.838).
    apply ln_increasing; [exact Hpos | lra].
Qed.

(** [norm_logpdf] is the logarithm of the Normal density
    [exp(-((x - loc)/scale)^2 / 2) / (scale * sqrt(2*pi))]. *)
Lemma exp_norm_logpdf (x loc scale : R) :
  0 < scale ->
  exp (norm_logpdf x loc scale)
  = exp (- ((x - loc) / scale) ^ 2 / 2) / (scale * sqrt (2 * PI)).
Proof.
  intros Hs.
  assert (Hpi : 0 < sqrt (2 * PI)).
  { apply sqrt_lt_R0. pose proof PI_RGT_0. lra. }
  unfold norm_logpdf. cbv zeta.
  replace (- ((x - loc) / scale * ((x - loc) / scale)) / 2
           - ln (sqrt (2 * PI)) - ln scale)
    with (- ((x - loc) / scale) ^ 2 / 2
          + (- ln (sqrt (2 * PI)) + - ln scale)) by (simpl; field; lra).
  rewrite !exp_plus, !exp_Ropp, !exp_ln by assumption.
  field. split; apply Rgt_not_eq; assumption.
Qed.

(** ** The helper methods on well-formed arguments *)

Lemma calc_predictive_logp_ok (x mu0 rho0 : R) :
  0 < rho0 ->
  calc_predictive_logp x (Some mu0) (Some rho0)
  = Ret (norm_logpdf x mu0 (1 / sqrt rho0)).
Proof.
  intros Hrho. unfold calc_predictive_logp. simpl.
  rewrite py_pow_half_ok by lra. simpl.
  rewrite py_div_ok by (apply Rgt_not_eq, sqrt_lt_R0, Hrho).
  reflexivity.
Qed.

Lemma calc_log_likelihood_ok (N : Z) (sum_x sum_x_sq mu0 rho0 : R) :
  0 < rho0 ->
  calc_log_likelihood N sum_x sum_x_sq (Some rho0) (Some mu0)
  = Ret (- (IZR N / 2) * ln (2 * PI) + (IZR N / 2) * ln rho0
         - (rho0 / 2) * (IZR N * mu0 ^ 2 - 2 * mu0 * sum_x + sum_x_sq)).
Proof.
  intros Hrho. unfold calc_log_likelihood. simpl.
  rewrite py_log_ok by assumption. simpl.
  f_equal. unfold LOG2PI.
  replace 0.5 with (/ 2) by lra. field.
Qed.

Lemma calc_log_prior_ok (gamma_logpdf : R -> R -> R -> R)
    (mu0 rho0 m r s nu : R) :
  0 < rho0 -> 0 < r -> s <> 0 ->
  calc_log_prior gamma_logpdf (Some mu0) (Some rho0) m r s nu
  = Ret (gamma_logpdf rho0 (nu / 2) (2 / s)
         + norm_logpdf mu0 m (1 / sqrt (r * rho0))).
Proof.
  intros Hrho Hr Hs. unfold calc_log_prior.
  rewrite py_div_ok by assumption. simpl.
  assert (Hp : 0 < r * rho0) by (apply Rmult_lt_0_compat; assumption).
  rewrite py_pow_half_ok by lra. simpl.
  rewrite py_div_ok by (apply Rgt_not_eq, sqrt_lt_R0, Hp). simpl.
  f_equal. apply Rplus_comm.
Qed.

(** ** The helper methods return on well-formed arguments only *)

Lemma calc_predictive_logp_returns (x : R) (mu rho : option R) (v : R) :
  returns (calc_predictive_logp x mu rho) v ->
  exists mu0 rho0,
    mu = Some mu0 /\ rho = Some rho0 /\ 0 < rho0
    /\ v = norm_logpdf x mu0 (1 / sqrt rho0).
Proof.
  unfold calc_predictive_logp. intros H.
  apply returns_bind_inv in H. destruct H as [rho0 [Hrho H]].
  apply returns_num in Hrho.
  apply returns_bind_inv in H. destruct H as [p [Hp H]].
  apply returns_bind_inv in H. destruct H as [scale [Hd H]].
  pose proof (returns_inv_sqrt_scale rho0 scale
                (returns_bind _ _ _ _ Hp Hd)) as [Hpos ->].
  apply returns_bind_inv in H. destruct H as [mu0 [Hmu H]].
  apply returns_num in Hmu. apply returns_Ret_inv in H.
  exists mu0, rho0. repeat split; assumption.
Qed.

Lemma calc_log_likelihood_returns (N : Z) (sum_x sum_x_sq : R)
    (rho mu : option R) (v : R) :
  returns (calc_log_likelihood N sum_x sum_x_sq rho mu) v ->
  exists mu0 rho0, mu = Some mu0 /\ rho = Some rho0 /\ 0 < rho0.
Proof.
  unfold calc_log_likelihood. intros H.
  apply returns_bind_inv in H. destruct H as [rho0 [Hrho H]].
  apply returns_num in Hrho.
  apply returns_bind_inv in H. destruct H as [l [Hl H]].
  apply returns_py_log in Hl. destruct Hl as [Hpos _].
  apply returns_bind_inv in H. destruct H as [mu0 [Hmu _]].
  apply returns_num in Hmu.
  exists mu0, rho0. repeat split; assumption.
Qed.

Lemma calc_log_prior_returns (gamma_logpdf : R -> R -> R -> R)
    (mu rho : option R) (m r s nu v rho0 : R) :
  rho = Some rho0 -> 0 < rho0 ->
  returns (calc_log_prior gamma_logpdf mu rho m r s nu) v ->
  0 < r /\ s <> 0.
Proof.
  unfold calc_log_prior. intros -> Hpos H.
  apply returns_bind_inv in H. destruct H as [sc [Hsc H]].
  apply returns_py_div in Hsc. destruct Hsc as [Hs _].
  simpl in H.
  apply returns_bind_inv in H. destruct H as [p [Hp H]].
  apply returns_bind_inv in H. destruct H as [scale [Hd _]].
  pose proof (returns_inv_sqrt_scale (r * rho0) scale
                (returns_bind _ _ _ _ Hp Hd)) as [Hrr _].
  split; [ | exact Hs].
  destruct (Rlt_le_dec 0 r) as [Hr | Hr]; [exact Hr | ].
  exfalso. nra.
Qed.

(** ** Predictive and singleton log-probabilities *)

(** C3: [predictive_logp(x)] is the Normal log-density of [x] with mean
    [mu] and standard deviation [1/sqrt(rho)]: it returns it on every state
    whose precision is positive, and returns nothing else on any state; and
    it reads nothing but [(mu, rho)]: two states with the same latent
    parameters and any sufficient statistics and hyperparameters give the
    same computation. *)
Theorem predictive_logp_normal_density :
  forall (stats stats' : Normal.t) (mu0 rho0 : option R) (x : R),
    (forall mu1 rho1, mu0 = Some mu1 -> rho0 = Some rho1 -> 0 < rho1 ->
       predictive_logp {| super := stats; mu := mu0; rho := rho0 |} x
       = Ret (norm_logpdf x mu1 (1 / sqrt rho1)))
    /\ (forall v,
          returns
            (predictive_logp {| super := stats; mu := mu0; rho := rho0 |} x) v ->
          exists mu1 rho1,
            mu0 = Some mu1 /\ rho0 = Some rho1 /\ 0 < rho1
            /\ v = norm_logpdf x mu1 (1 / sqrt rho1))
    /\ predictive_logp {| super := stats; mu := mu0; rho := rho0 |} x
       = predictive_logp {| super := stats'; mu := mu0; rho := rho0 |} x.
Proof.
  intros stats stats' mu0 rho0 x. split; [ | split].
  - intros mu1 rho1 -> -> Hrho. unfold predictive_logp. simpl.
    apply calc_predictive_logp_ok, Hrho.
  - intros v H. unfold predictive_logp in H. simpl in H.
    apply calc_predictive_logp_returns in H. exact H.
  - reflexivity.
Qed.

Lemma predictive_logp_normal_density_witness :
  predictive_logp
    {| super := Normal.Build 3 6 14 0 1 1 1; mu := Some 2; rho := Some 4 |} 1
  = Ret (norm_logpdf 1 2 (1 / sqrt 4)).
Proof.
  apply (proj1 (predictive_logp_normal_density
                  (Normal.Build 3 6 14 0 1 1 1) (Normal.Build 0 0 0 0 1 1 1)
                  (Some 2) (Some 4) 1) 2 4);
    [reflexivity | reflexivity | lra].
Defined.

(** C5: [singleton_logp(x)] is [predictive_logp(x)], evaluated against the
    current [(mu, rho)] whatever the sufficient statistics: the count [N]
    (zero or not) plays no part. *)
Theorem singleton_logp_is_predictive_logp :
  forall (stats stats' : Normal.t) (mu0 rho0 : option R) (x : R),
    singleton_logp {| super := stats; mu := mu0; rho := rho0 |} x
    = predictive_logp {| super := stats; mu := mu0; rho := rho0 |} x
    /\ singleton_logp {| super := stats; mu := mu0; rho := rho0 |} x
       = singleton_logp {| super := stats'; mu := mu0; rho := rho0 |} x.
Proof.
  intros. split; reflexivity.
Qed.

(** C8: with [mu = 0] and [rho = 1], [predictive_logp(0)] is the standard
    normal log-density at 0, [-0.5 * log(2*pi)], a number between -0.919
    and -0.9189. *)
Theorem predictive_logp_standard_normal_at_0 :
  forall stats : Normal.t,
    predictive_logp {| super := stats; mu := Some 0; rho := Some 1 |} 0
    = Ret (-0.5 * ln (2 * PI))
    /\ -0.919 < -0.5 * ln (2 * PI) < -0.9189.
Proof.
  intros stats. split.
  - unfold predictive_logp. simpl.
    rewrite calc_predictive_logp_ok by lra.
    f_equal. unfold norm_logpdf.
    rewrite sqrt_1.
    replace (1 / 1) with 1 by field.
    rewrite ln_1.
    rewrite ln_sqrt_half by (pose proof PI_RGT_0; lra).
    lra.
  - pose proof ln_2PI_bounds. lra.
Qed.

(** C7 (as the code has it): no [NumericError] exists in the code.  On a
    state whose precision is not positive, [predictive_logp(x)] fails while
    it computes the scale [1./rho**.5]: with [ZeroDivisionError] when
    [rho = 0], with [ValueError] when [rho < 0]. *)
Theorem predictive_logp_nonpositive_rho :
  forall (self : NormalUC) (x rho0 : R),
    rho self = Some rho0 -> rho0 <= 0 ->
    (rho0 = 0 /\ predictive_logp self x = Raise ZeroDivisionError)
    \/ (rho0 < 0 /\ predictive_logp self x = Raise ValueError).
Proof.
  intros self x rho0 Hrho Hle.
  unfold predictive_logp, calc_predictive_logp. rewrite Hrho. simpl.
  destruct (Rle_lt_or_eq_dec rho0 0 Hle) as [Hlt | Heq].
  - right. split; [exact Hlt | ].
    rewrite py_pow_half_neg by exact Hlt. reflexivity.
  - left. split; [exact Heq | ]. subst rho0.
    rewrite py_pow_half_ok by lra. simpl.
    rewrite sqrt_0, py_div_zero. reflexivity.
Qed.

Lemma predictive_logp_nonpositive_rho_witness :
  (0 = 0 /\
   predictive_logp
     {| super := Normal.Build 0 0 0 0 1 1 1; mu := Some 0; rho := Some 0 |} 0
   = Raise ZeroDivisionError)
  \/ (0 < 0 /\
      predictive_logp
        {| super := Normal.Build 0 0 0 0 1 1 1; mu := Some 0; rho := Some 0 |} 0
      = Raise ValueError).
Proof.
  apply (predictive_logp_nonpositive_rho
           {| super := Normal.Build 0 0 0 0 1 1 1; mu := Some 0; rho := Some 0 |}
           0 0);
    [reflexivity | lra].
Defined.

(** C7 fails as stated: at [rho = 0] the error raised is
    [ZeroDivisionError], not [NumericError]. *)
Lemma predictive_logp_rho_zero_not_NumericError :
  let self :=
    {| super := Normal.Build 0 0 0 0 1 1 1; mu := Some 0; rho := Some 0 |} in
  rho self = Some 0 /\ 0 <= 0
  /\ predictive_logp self 0 = Raise ZeroDivisionError
  /\ predictive_logp self 0 <> Raise NumericError.
Proof.
  assert (E : predictive_logp
                {| super := Normal.Build 0 0 0 0 1 1 1;
                   mu := Some 0; rho := Some 0 |} 0
              = Raise ZeroDivisionError).
  { unfold predictive_logp, calc_predictive_logp. simpl.
    rewrite py_pow_half_ok by lra. simpl.
    rewrite sqrt_0, py_div_zero. reflexivity. }
  simpl. repeat split.
  - lra.
  - exact E.
  - rewrite E. discriminate.
Qed.

(** ** The marginal log-probability *)

(** C2: [marginal_logp()] is the sum of the log-likelihood of the
    sufficient statistics given [(mu, rho)] and of the log-prior of
    [(mu, rho)], the joint log-density of data and parameters: it returns
    that sum on every state with positive precision and positive
    hyperparameters [r] and [s], and returns nothing else on any state. *)
Theorem marginal_logp_decomposition :
  forall (gamma_logpdf : R -> R -> R -> R) (self : NormalUC) (mu0 rho0 : R),
    mu self = Some mu0 -> rho self = Some rho0 ->
    let N := IZR (Normal.N (super self)) in
    let sum_x := Normal.sum_x (super self) in
    let sum_x_sq := Normal.sum_x_sq (super self) in
    let log_likelihood :=
      - (N / 2) * ln (2 * PI) + (N / 2) * ln rho0
      - (rho0 / 2) * (N * mu0 ^ 2 - 2 * mu0 * sum_x + sum_x_sq) in
    let log_prior :=
      gamma_logpdf rho0 (Normal.nu (super self) / 2)
        (2 / Normal.s (super self))
      + norm_logpdf mu0 (Normal.m (super self))
          (1 / sqrt (Normal.r (super self) * rho0)) in
    (0 < rho0 -> 0 < Normal.r (super self) -> 0 < Normal.s (super self) ->
     calc_log_likelihood (Normal.N (super self)) sum_x sum_x_sq
       (rho self) (mu self) = Ret log_likelihood
     /\ calc_log_prior gamma_logpdf (mu self) (rho self)
          (Normal.m (super self)) (Normal.r (super self))
          (Normal.s (super self)) (Normal.nu (super self)) = Ret log_prior
     /\ marginal_logp gamma_logpdf self = Ret (log_likelihood + log_prior))
    /\ (forall v, returns (marginal_logp gamma_logpdf self) v ->
          v = log_likelihood + log_prior).
Proof.
  intros gamma_logpdf self mu0 rho0 Hmu Hrho.
  intros N sum_x sum_x_sq log_likelihood log_prior.
  subst N sum_x sum_x_sq log_likelihood log_prior.
  assert (Hok : 0 < rho0 -> 0 < Normal.r (super self) ->
                Normal.s (super self) <> 0 ->
                marginal_logp gamma_logpdf self
                = Ret (- (IZR (Normal.N (super self)) / 2) * ln (2 * PI)
                       + IZR (Normal.N (super self)) / 2 * ln rho0
                       - rho0 / 2
                         * (IZR (Normal.N (super self)) * mu0 ^ 2
                            - 2 * mu0 * Normal.sum_x (super self)
                            + Normal.sum_x_sq (super self))
                       + (gamma_logpdf rho0 (Normal.nu (super self) / 2)
                            (2 / Normal.s (super self))
                          + norm_logpdf mu0 (Normal.m (super self))
                              (1 / sqrt (Normal.r (super self) * rho0))))).
  { intros Hpos Hr Hs. unfold marginal_logp. rewrite Hmu, Hrho.
    rewrite calc_log_likelihood_ok by assumption.
    rewrite calc_log_prior_ok by assumption.
    reflexivity. }
  split.
  - intros Hpos Hr Hs. split; [ | split].
    + rewrite Hmu, Hrho. apply calc_log_likelihood_ok; assumption.
    + rewrite Hmu, Hrho. apply calc_log_prior_ok; try assumption; lra.
    + apply Hok; try assumption; lra.
  - intros v H.
    assert (H' := H). unfold marginal_logp in H'.
    apply returns_bind_inv in H'. destruct H' as [l [Hl H']].
    apply returns_bind_inv in H'. destruct H' as [q [Hq _]].
    apply calc_log_likelihood_returns in Hl.
    destruct Hl as [mu1 [rho1 [_ [Hrho1 Hpos]]]].
    rewrite Hrho in Hrho1. injection Hrho1 as <-.
    destruct (calc_log_prior_returns _ _ _ _ _ _ _ _ _ Hrho Hpos Hq)
      as [Hr Hs].
    rewrite (Hok Hpos Hr Hs) in H.
    apply returns_Ret_inv in H. exact H.
Qed.

Lemma marginal_logp_decomposition_witness :
  marginal_logp (fun _ _ _ => 0)
    {| super := Normal.Build 3 6 14 0 1 1 1; mu := Some 2; rho := Some 4 |}
  = Ret ((- (3 / 2) * ln (2 * PI) + (3 / 2) * ln 4
          - (4 / 2) * (3 * 2 ^ 2 - 2 * 2 * 6 + 14))
         + (0 + norm_logpdf 2 0 (1 / sqrt (1 * 4)))).
Proof.
  apply (proj1 (marginal_logp_decomposition (fun _ _ _ => 0)
                  {| super := Normal.Build 3 6 14 0 1 1 1;
                     mu := Some 2; rho := Some 4 |} 2 4 eq_refl eq_refl));
    simpl; lra.
Defined.

(** ** Sufficient statistics and the posterior scale *)

(** The inequality behind the positivity of [sn]: for statistics of real
    data the posterior scale never falls below the prior one. *)
Lemma posterior_scale_bound (n S Q r m : R) :
  0 < r -> 0 <= n -> 0 <= Q -> S * S <= n * Q ->
  (r * m + S) * (r * m + S) <= (r + n) * (Q + r * m * m).
Proof.
  intros Hr Hn HQ HS.
  assert (HT : 0 <= Q + n * m * m - 2 * m * S).
  { destruct Hn as [Hn | Hn].
    - assert (H1 : 0 <= n * (Q + n * m * m - 2 * m * S)).
      { pose proof (Rle_0_sqr (S - n * m)) as H2. unfold Rsqr in H2. nra. }
      destruct (Rle_lt_dec 0 (Q + n * m * m - 2 * m * S)) as [H | H];
        [exact H | ].
      exfalso. nra.
    - subst n.
      assert (HS0 : S = 0) by (pose proof (Rle_0_sqr S); unfold Rsqr in *; nra).
      subst S. lra. }
  nra.
Qed.

Lemma valid_suffstats_of_data (xs : list R) :
  valid_suffstats (Z.of_nat (length xs)) (sum_list xs) (sum_sq_list xs).
Proof.
  unfold valid_suffstats.
  induction xs as [ | x xs [IHq IHs]].
  - simpl. split; lra.
  - assert (Hn : 0 <= IZR (Z.of_nat (length xs))).
    { apply IZR_le, Nat2Z.is_nonneg. }
    assert (Hlen : IZR (Z.of_nat (length (x :: xs)))
                   = 1 + IZR (Z.of_nat (length xs))).
    { simpl length. rewrite Nat2Z.inj_succ, succ_IZR. ring. }
    rewrite Hlen. simpl sum_list. simpl sum_sq_list.
    split.
    + pose proof (Rle_0_sqr x) as Hx. unfold Rsqr in Hx. lra.
    + pose proof (posterior_scale_bound _ _ _ 1 x Rlt_0_1 Hn IHq IHs) as H.
      nra.
Qed.

(** ** Transition of the latent parameters *)

(** With the documented parent, [transition_params] is one Gamma draw
    followed by one Normal draw whose precision uses the Gamma draw. *)
Lemma transition_params_tree (self : NormalUC) :
  let N := IZR (Normal.N (super self)) in
  let rn := Normal.r (super self) + N in
  let nun := Normal.nu (super self) + N in
  let mn := (Normal.r (super self) * Normal.m (super self)
             + Normal.sum_x (super self)) / rn in
  let sn := Normal.s (super self) + Normal.sum_x_sq (super self)
            + Normal.r (super self) * Normal.m (super self)
              * Normal.m (super self)
            - rn * mn * mn in
  transition_params (parent := Normal_spec) self
  = SampleGamma (nun / 2) (sn / 2) (fun rho' =>
      SampleNormal mn (rn * rho') (fun mu' =>
        Ret {| super := super self; mu := Some mu'; rho := Some rho' |})).
Proof. reflexivity. Qed.

(** C1: [transition_params] computes [rn = r + N], [nun = nu + N],
    [mn = (r*m + sum_x)/rn], [sn = s + sum_x_sq + r*m*m - rn*mn*mn], then
    draws [rho] from Gamma(nun/2, rate sn/2) and after it [mu] from
    Normal(mn, precision rn*rho), where [rho] is the value just drawn; the
    new state holds the two draws. *)
Theorem transition_params_posterior_draws :
  forall (self : NormalUC),
    let N := Normal.N (super self) in
    let sum_x := Normal.sum_x (super self) in
    let sum_x_sq := Normal.sum_x_sq (super self) in
    let m := Normal.m (super self) in
    let r := Normal.r (super self) in
    let s := Normal.s (super self) in
    let nu := Normal.nu (super self) in
    let rn := r + IZR N in
    let nun := nu + IZR N in
    let mn := (r * m + sum_x) / rn in
    let sn := s + sum_x_sq + r * m * m - rn * mn * mn in
    posterior_hypers (NormalClass := Normal_spec) N sum_x sum_x_sq m r s nu
    = Ret (rn, nun, mn, sn)
    /\ transition_params (parent := Normal_spec) self
       = SampleGamma (nun / 2) (sn / 2) (fun rho' =>
           SampleNormal mn (rn * rho') (fun mu' =>
             Ret {| super := super self; mu := Some mu'; rho := Some rho' |}))
    /\ forall (G : Type) (h : sampler G) (g : G),
         run h (transition_params (parent := Normal_spec) self) g
         = let (rho', g1) := draw_gamma h (nun / 2) (sn / 2) g in
           let (mu', g2) := draw_normal h mn (rn * rho') g1 in
           (Ok {| super := super self; mu := Some mu'; rho := Some rho' |},
            g2).
Proof.
  intros self. cbv zeta. repeat split.
Qed.

Lemma same_super (a b : NormalUC) :
  super a = super b -> same_stats_and_hypers a b.
Proof.
  intros E. unfold same_stats_and_hypers. rewrite E. repeat split.
Qed.

(** Whatever the parent's static methods compute, the object returned by
    [transition_params] keeps the parent's attributes. *)
Lemma transition_params_super {parent : NormalClass} (self self' : NormalUC) :
  returns (transition_params self) self' -> super self' = super self.
Proof.
  unfold transition_params. intros H.
  apply returns_bind_inv in H. destruct H as [[[[rn nun] mn] sn] [_ H]].
  apply returns_bind_inv in H. destruct H as [[mu' rho'] [_ H]].
  inversion H; subst. reflexivity.
Qed.

(** C9: [transition_params] assigns [mu] and [rho] only: the sufficient
    statistics [(N, sum_x, sum_x_sq)] and the hyperparameters
    [(m, r, s, nu)] of the returned state are those of the starting state,
    whatever the parent's static methods do; and with the documented parent
    the call always returns. *)
Theorem transition_params_frame :
  forall (self : NormalUC),
    (forall (parent : NormalClass) (self' : NormalUC),
       returns (transition_params self) self' ->
       same_stats_and_hypers self' self)
    /\ (forall (G : Type) (h : sampler G) (g : G),
          exists self' g',
            run h (transition_params (parent := Normal_spec) self) g
            = (Ok self', g')
            /\ same_stats_and_hypers self' self).
Proof.
  intros self. split.
  - intros parent self' H. apply same_super.
    apply (transition_params_super self self' H).
  - intros G h g. rewrite transition_params_tree. cbv zeta. simpl.
    destruct (draw_gamma h _ _ g) as [rho' g1].
    destruct (draw_normal h _ _ g1) as [mu' g2].
    eexists. eexists. split; [reflexivity | ].
    apply same_super. reflexivity.
Qed.

Lemma transition_params_frame_witness :
  same_stats_and_hypers
    {| super := Normal.Build 3 6 14 0 1 1 1; mu := Some 0; rho := Some 1 |}
    {| super := Normal.Build 3 6 14 0 1 1 1; mu := None; rho := None |}.
Proof.
  apply (proj1 (transition_params_frame
                  {| super := Normal.Build 3 6 14 0 1 1 1;
                     mu := None; rho := None |}) Normal_spec).
  apply (returns_Gamma _ _ _ 1).
  apply (returns_Normal _ _ _ 0).
  apply returns_Ret.
Defined.

(** The spec's example: with no data and the default hyperparameters the
    posterior hyperparameters are the prior ones. *)
Example posterior_hypers_default :
  exists rn nun mn sn,
    posterior_hypers (NormalClass := Normal_spec) 0 0 0 0 1 1 1
    = Ret (rn, nun, mn, sn)
    /\ rn = 1 /\ nun = 1 /\ mn = 0 /\ sn = 1.
Proof.
  do 4 eexists. split; [reflexivity | ].
  repeat split; field.
Qed.

(** C4 (as the formulas have it): when [nu, r, s > 0], [N >= 0] and the
    sufficient statistics are those of real data ([sum_x_sq >= 0] and
    [sum_x^2 <= N * sum_x_sq]), the posterior hyperparameters satisfy
    [nun > 0], [rn > 0] and [sn > 0], and against every generator whose
    Gamma draws are positive [transition_params] returns a state whose
    [rho] is positive. *)
Theorem posterior_hypers_positive :
  forall (self : NormalUC),
    let N := Normal.N (super self) in
    let sum_x := Normal.sum_x (super self) in
    let sum_x_sq := Normal.sum_x_sq (super self) in
    let m := Normal.m (super self) in
    let r := Normal.r (super self) in
    let s := Normal.s (super self) in
    let nu := Normal.nu (super self) in
    0 < nu -> 0 < r -> 0 < s -> (0 <= N)%Z ->
    valid_suffstats N sum_x sum_x_sq ->
    exists rn nun mn sn,
      posterior_hypers (NormalClass := Normal_spec) N sum_x sum_x_sq m r s nu
      = Ret (rn, nun, mn, sn)
      /\ 0 < nun /\ 0 < rn /\ 0 < sn
      /\ forall (G : Type) (h : sampler G) (g : G),
           sound_sampler h ->
           exists self' g' rho',
             run h (transition_params (parent := Normal_spec) self) g
             = (Ok self', g')
             /\ rho self' = Some rho' /\ 0 < rho'.
Proof.
  intros self N sum_x sum_x_sq m r s nu Hnu Hr Hs HN [HQ HS].
  assert (Hn : 0 <= IZR N) by (apply IZR_le; exact HN).
  assert (Hrn : 0 < r + IZR N) by lra.
  assert (Hnun : 0 < nu + IZR N) by lra.
  set (rn := r + IZR N) in *.
  set (mn := (r * m + sum_x) / rn).
  set (sn := s + sum_x_sq + r * m * m - rn * mn * mn).
  assert (Hsn : 0 < sn).
  { assert (E : rn * mn * mn = (r * m + sum_x) * (r * m + sum_x) / rn).
    { unfold mn. field. lra. }
    assert (B : (r * m + sum_x) * (r * m + sum_x) / rn
                <= sum_x_sq + r * m * m).
    { apply (Rmult_le_reg_r rn); [lra | ].
      pose proof (posterior_scale_bound (IZR N) sum_x sum_x_sq r m
                    Hr Hn HQ HS) as H.
      fold rn in H.
      replace ((r * m + sum_x) * (r * m + sum_x) / rn * rn)
        with ((r * m + sum_x) * (r * m + sum_x)) by (field; lra).
      lra. }
    unfold sn. lra. }
  exists rn, (nu + IZR N), mn, sn.
  split; [reflexivity | ].
  repeat (split; [assumption | ]).
  intros G h g Hh.
  assert (W : wp (transition_params (parent := Normal_spec) self)
                (fun self' => exists rho', rho self' = Some rho' /\ 0 < rho')).
  { rewrite transition_params_tree. cbv zeta. simpl.
    fold N sum_x sum_x_sq m r s nu. fold rn. fold mn. fold sn.
    split; [lra | ]. split; [lra | ].
    intros x Hx. split; [apply Rmult_lt_0_compat; assumption | ].
    intros y. exists x. split; [reflexivity | exact Hx]. }
  destruct (wp_run h _ _ Hh W g) as [self' [g' [Hrun [rho' [E Hpos]]]]].
  exists self', g', rho'. repeat split; assumption.
Qed.

Lemma mean_sampler_sound : sound_sampler mean_sampler.
Proof.
  intros shape rate g Hs Hr. simpl.
  apply Rdiv_lt_0_compat; assumption.
Qed.

Lemma posterior_hypers_positive_witness :
  exists rn nun mn sn,
    posterior_hypers (NormalClass := Normal_spec) 3 6 14 0 1 1 1
    = Ret (rn, nun, mn, sn)
    /\ 0 < nun /\ 0 < rn /\ 0 < sn
    /\ forall (G : Type) (h : sampler G) (g : G),
         sound_sampler h ->
         exists self' g' rho',
           run h (transition_params (parent := Normal_spec)
                    {| super := Normal.Build 3 6 14 0 1 1 1;
                       mu := None; rho := None |}) g
           = (Ok self', g')
           /\ rho self' = Some rho' /\ 0 < rho'.
Proof.
  apply (posterior_hypers_positive
           {| super := Normal.Build 3 6 14 0 1 1 1;
              mu := None; rho := None |});
    simpl; try lra; try lia.
  unfold valid_suffstats. lra.
Defined.

(** C4 fails as stated: the object built with [N = 1], [sum_x = 10],
    [sum_x_sq = 0] and the default hyperparameters [m = 0], [r = s = nu = 1]
    has [nu, r, s > 0] and [N >= 0], and the formulas give it [sn = -49]. *)
Lemma posterior_hypers_sn_not_positive :
  let self :=
    {| super := Normal.Build 1 10 0 0 1 1 1; mu := None; rho := None |} in
  0 < Normal.nu (super self) /\ 0 < Normal.r (super self)
  /\ 0 < Normal.s (super self) /\ (0 <= Normal.N (super self))%Z
  /\ exists rn nun mn sn,
       posterior_hypers (NormalClass := Normal_spec) (Normal.N (super self))
         (Normal.sum_x (super self)) (Normal.sum_x_sq (super self))
         (Normal.m (super self)) (Normal.r (super self))
         (Normal.s (super self)) (Normal.nu (super self))
       = Ret (rn, nun, mn, sn)
       /\ sn = -49 /\ ~ (0 < nun /\ 0 < rn /\ 0 < sn).
Proof.
  simpl.
  repeat (split; [lra || lia | ]).
  do 4 eexists. split; [reflexivity | ].
  assert (E : 1 + 0 + 1 * 0 * 0
              - (1 + 1) * ((1 * 0 + 10) / (1 + 1)) * ((1 * 0 + 10) / (1 + 1))
              = -49) by field.
  split; [exact E | ].
  rewrite E. intros [_ [_ H]]. lra.
Qed.

(** ** Construction *)

Lemma Normal_init_ok (N : Z) (sum_x sum_x_sq m r s nu : R) :
  0 < r -> 0 < s -> 0 < nu ->
  Normal_init N sum_x sum_x_sq m r s nu
  = Ret (Normal.Build N sum_x sum_x_sq m r s nu).
Proof.
  intros Hr Hs Hnu. unfold Normal_init.
  destruct (Rlt_dec 0 r); [ | contradiction].
  destruct (Rlt_dec 0 s); [ | contradiction].
  destruct (Rlt_dec 0 nu); [ | contradiction].
  reflexivity.
Qed.

(** C6: when [mu] or [rho] is not supplied, the constructor calls
    [transition_params] on the object it has just filled in, whatever the
    parent class does; with the documented parent and positive
    hyperparameters the object built holds a [rho] drawn from
    Gamma(nun/2, rate sn/2) and a [mu] drawn from Normal(mn, precision
    rn*rho), the posterior given the statistics supplied (the prior when
    they are all zero), in place of whatever was supplied. *)
Theorem init_samples_missing_latents :
  forall (N : Z) (sum_x sum_x_sq : R) (mu0 rho0 : option R) (m r s nu : R),
    mu0 = None \/ rho0 = None ->
    (forall (parent : NormalClass),
       __init__ N sum_x sum_x_sq mu0 rho0 m r s nu
       = (base <- Normal__init__ N sum_x sum_x_sq m r s nu ;;
          transition_params {| super := base; mu := mu0; rho := rho0 |}))
    /\ (0 < r -> 0 < s -> 0 < nu ->
        let rn := r + IZR N in
        let nun := nu + IZR N in
        let mn := (r * m + sum_x) / rn in
        let sn := s + sum_x_sq + r * m * m - rn * mn * mn in
        __init__ (parent := Normal_spec) N sum_x sum_x_sq mu0 rho0 m r s nu
        = SampleGamma (nun / 2) (sn / 2) (fun rho' =>
            SampleNormal mn (rn * rho') (fun mu' =>
              Ret {| super := Normal.Build N sum_x sum_x_sq m r s nu;
                     mu := Some mu'; rho := Some rho' |}))).
Proof.
  intros N sum_x sum_x_sq mu0 rho0 m r s nu Hnone.
  assert (Hb : (is_None mu0 || is_None rho0)%bool = true).
  { destruct Hnone as [-> | ->]; simpl; [reflexivity | ].
    destruct mu0; reflexivity. }
  split.
  - intros parent. unfold __init__. rewrite Hb. reflexivity.
  - intros Hr Hs Hnu. cbv zeta. unfold __init__. rewrite Hb.
    change (Normal__init__ N sum_x sum_x_sq m r s nu)
      with (Normal_init N sum_x sum_x_sq m r s nu).
    rewrite Normal_init_ok by assumption.
    reflexivity.
Qed.

Lemma init_samples_missing_latents_witness :
  __init__ (parent := Normal_spec) 0 0 0 None None 0 1 1 1
  = SampleGamma ((1 + 0) / 2)
      ((1 + 0 + 1 * 0 * 0
        - (1 + 0) * ((1 * 0 + 0) / (1 + 0)) * ((1 * 0 + 0) / (1 + 0))) / 2)
      (fun rho' =>
         SampleNormal ((1 * 0 + 0) / (1 + 0)) ((1 + 0) * rho') (fun mu' =>
           Ret {| super := Normal.Build 0 0 0 0 1 1 1;
                  mu := Some mu'; rho := Some rho' |})).
Proof.
  apply (proj2 (init_samples_missing_latents 0 0 0 None None 0 1 1 1
                  (or_introl eq_refl))); lra.
Defined.

(** C10: when both [mu] and [rho] are supplied, the constructor stores them
    as they are: it compares them with nothing and does not call
    [transition_params], whatever the parent class does; so with the
    documented parent and positive hyperparameters construction returns,
    raises nothing and draws nothing, also for a [rho] that is not
    positive. *)
Theorem init_stores_supplied_latents :
  forall (N : Z) (sum_x sum_x_sq mu0 rho0 m r s nu : R),
    (forall (parent : NormalClass),
       __init__ N sum_x sum_x_sq (Some mu0) (Some rho0) m r s nu
       = (base <- Normal__init__ N sum_x sum_x_sq m r s nu ;;
          Ret {| super := base; mu := Some mu0; rho := Some rho0 |}))
    /\ (0 < r -> 0 < s -> 0 < nu ->
        __init__ (parent := Normal_spec) N sum_x sum_x_sq
          (Some mu0) (Some rho0) m r s nu
        = Ret {| super := Normal.Build N sum_x sum_x_sq m r s nu;
                 mu := Some mu0; rho := Some rho0 |}).
Proof.
  intros N sum_x sum_x_sq mu0 rho0 m r s nu. split.
  - intros parent. reflexivity.
  - intros Hr Hs Hnu. unfold __init__.
    change (Normal__init__ N sum_x sum_x_sq m r s nu)
      with (Normal_init N sum_x sum_x_sq m r s nu).
    rewrite Normal_init_ok by assumption.
    reflexivity.
Qed.

Lemma init_stores_supplied_latents_witness :
  __init__ (parent := Normal_spec) 0 0 0 (Some 0) (Some (-1)) 0 1 1 1
  = Ret {| super := Normal.Build 0 0 0 0 1 1 1;
           mu := Some 0; rho := Some (-1) |}.
Proof.
  apply (proj2 (init_stores_supplied_latents 0 0 0 0 (-1) 0 1 1 1)); lra.
Defined.

(** The default constructor run against the generator of means: the prior
    means [rho = 1] and [mu = 0]. *)
Example init_default_with_mean_sampler :
  run mean_sampler
    (__init__ (parent := Normal_spec) 0 0 0 None None 0 1 1 1) tt
  = (Ok {| super := Normal.Build 0 0 0 0 1 1 1; mu := Some 0; rho := Some 1 |},
     tt).
Proof.
  unfold __init__.
  change (Normal__init__ 0 0 0 0 1 1 1) with (Normal_init 0 0 0 0 1 1 1).
  rewrite Normal_init_ok by lra.
  simpl.
  replace ((1 * 0 + 0) / (1 + 0)) with 0 by (field; lra).
  replace ((1 + 0) / 2 / ((1 + 0 + 1 * 0 * 0 - (1 + 0) * 0 * 0) / 2))
    with 1 by (field; lra).
  reflexivity.
Qed.

(** ** The log-likelihood is the log-density of the data *)

(** The Normal log-density written with the precision. *)
Lemma norm_logpdf_precision (x mu0 rho0 : R) :
  0 < rho0 ->
  norm_logpdf x mu0 (1 / sqrt rho0)
  = - ln (2 * PI) / 2 + ln rho0 / 2 - rho0 / 2 * (x - mu0) ^ 2.
Proof.
  intros Hrho.
  pose proof (sqrt_lt_R0 rho0 Hrho) as Hs.
  unfold norm_logpdf. cbv zeta.
  rewrite ln_sqrt_half by (pose proof PI_RGT_0; lra).
  replace (1 / sqrt rho0) with (/ sqrt rho0) by (field; lra).
  rewrite ln_Rinv by assumption.
  rewrite ln_sqrt_half by assumption.
  replace ((x - mu0) / / sqrt rho0 * ((x - mu0) / / sqrt rho0))
    with ((sqrt rho0 * sqrt rho0) * (x - mu0) ^ 2) by (field; lra).
  rewrite sqrt_sqrt by lra.
  field.
Qed.

(** [calc_log_likelihood] on the statistics of a data set is the joint
    log-density of the data given [(mu, rho)]: what [marginal_logp] adds to
    the log-prior is a likelihood, the parameters are not integrated out. *)
Lemma calc_log_likelihood_of_data (xs : list R) (mu0 rho0 : R) :
  0 < rho0 ->
  calc_log_likelihood (Z.of_nat (length xs)) (sum_list xs) (sum_sq_list xs)
    (Some rho0) (Some mu0)
  = Ret (data_logpdf mu0 rho0 xs).
Proof.
  intros Hrho. rewrite calc_log_likelihood_ok by assumption. f_equal.
  induction xs as [ | x xs IH].
  - simpl. lra.
  - assert (Hlen : IZR (Z.of_nat (length (x :: xs)))
                   = 1 + IZR (Z.of_nat (length xs))).
    { simpl length. rewrite Nat2Z.inj_succ, succ_IZR. ring. }
    rewrite Hlen. simpl sum_list. simpl sum_sq_list. simpl data_logpdf.
    rewrite <- IH. rewrite norm_logpdf_precision by assumption.
    field.
Qed.

(** ** Simulation *)

(** X1: on a state with positive precision, [simulate()] is one draw from
    the Normal distribution with mean [mu] and precision [rho]: the standard
    deviation [1./rho**.5] handed to numpy is that of the distribution whose
    log-density [predictive_logp] evaluates. *)
Theorem simulate_draws_normal :
  forall (self : NormalUC) (mu0 rho0 : R),
    mu self = Some mu0 -> rho self = Some rho0 -> 0 < rho0 ->
    simulate self = SampleNormal mu0 rho0 Ret.
Proof.
  intros self mu0 rho0 Hmu Hrho Hpos.
  pose proof (sqrt_lt_R0 rho0 Hpos) as Hs.
  unfold simulate. rewrite Hmu, Hrho. simpl.
  rewrite py_pow_half_ok by lra. simpl.
  rewrite py_div_ok by lra. simpl.
  unfold np_random_normal, sample_normal. f_equal.
  replace (1 / (1 / sqrt rho0 * (1 / sqrt rho0)))
    with (sqrt rho0 * sqrt rho0) by (field; lra).
  apply sqrt_sqrt. lra.
Qed.

Lemma simulate_draws_normal_witness :
  simulate
    {| super := Normal.Build 3 6 14 0 1 1 1; mu := Some 2; rho := Some 4 |}
  = SampleNormal 2 4 Ret.
Proof.
  apply (simulate_draws_normal
           {| super := Normal.Build 3 6 14 0 1 1 1;
              mu := Some 2; rho := Some 4 |} 2 4);
    [reflexivity | reflexivity | lra].
Defined.

(** X2: [simulate()] and [predictive_logp(x)] fail on the same states with
    the same exception: both compute the scale [1./rho**.5] first and use
    [mu] after it. *)
Theorem simulate_fails_as_predictive_logp :
  forall (self : NormalUC) (x : R) (e : exn),
    simulate self = Raise e <-> predictive_logp self x = Raise e.
Proof.
  intros [stats [mu0 | ] [rho0 | ]] x e;
    unfold simulate, predictive_logp, calc_predictive_logp; simpl;
    try (split; intros H; exact H);
    unfold py_pow_half, py_div;
    destruct (Rlt_dec rho0 0) as [L | NL]; simpl;
    try (split; intros H; exact H);
    destruct (Req_dec_T (sqrt rho0) 0) as [E | NE]; simpl;
    try (split; intros H; exact H);
    split; intros H; discriminate H.
Qed.

Lemma simulate_fails_as_predictive_logp_witness :
  predictive_logp
    {| super := Normal.Build 0 0 0 0 1 1 1; mu := Some 0; rho := None |} 0
  = Raise TypeError.
Proof.
  apply (proj1 (simulate_fails_as_predictive_logp
                  {| super := Normal.Build 0 0 0 0 1 1 1;
                     mu := Some 0; rho := None |} 0 TypeError)).
  reflexivity.
Defined.

(** ** Errors of the marginal log-probability *)

(** X3: on a state whose precision is not positive, [marginal_logp()] raises
    [ValueError]: [math.log(rho)] in the log-likelihood fails before [mu],
    [r] or [s] is looked at.  At [rho = 0] this is not the exception of
    [predictive_logp] ([ZeroDivisionError]). *)
Theorem marginal_logp_nonpositive_rho :
  forall (gamma_logpdf : R -> R -> R -> R) (self : NormalUC) (rho0 : R),
    rho self = Some rho0 -> rho0 <= 0 ->
    marginal_logp gamma_logpdf self = Raise ValueError.
Proof.
  intros gamma_logpdf self rho0 Hrho Hle.
  unfold marginal_logp, calc_log_likelihood. rewrite Hrho. simpl.
  unfold py_log. destruct (Rlt_dec 0 rho0) as [L | NL]; [lra | reflexivity].
Qed.

Lemma marginal_logp_nonpositive_rho_witness :
  marginal_logp (fun _ _ _ => 0)
    {| super := Normal.Build 0 0 0 0 1 1 1; mu := None; rho := Some 0 |}
  = Raise ValueError.
Proof.
  apply (marginal_logp_nonpositive_rho (fun _ _ _ => 0)
           {| super := Normal.Build 0 0 0 0 1 1 1;
              mu := None; rho := Some 0 |} 0);
    [reflexivity | lra].
Defined.

(** X4: on a state with latent parameters set and positive precision,
    [marginal_logp()] fails in the log-prior when the hyperparameters are
    out of range: [2./s] raises [ZeroDivisionError] when [s = 0]; otherwise
    the scale [1./(r*rho)**.5] raises [ZeroDivisionError] when [r = 0] and
    [ValueError] when [r < 0]. *)
Theorem marginal_logp_bad_hypers :
  forall (gamma_logpdf : R -> R -> R -> R) (self : NormalUC) (mu0 rho0 : R),
    mu self = Some mu0 -> rho self = Some rho0 -> 0 < rho0 ->
    (Normal.s (super self) = 0 ->
     marginal_logp gamma_logpdf self = Raise ZeroDivisionError)
    /\ (Normal.s (super self) <> 0 -> Normal.r (super self) = 0 ->
        marginal_logp gamma_logpdf self = Raise ZeroDivisionError)
    /\ (Normal.s (super self) <> 0 -> Normal.r (super self) < 0 ->
        marginal_logp gamma_logpdf self = Raise ValueError).
Proof.
  intros gamma_logpdf self mu0 rho0 Hmu Hrho Hpos.
  unfold marginal_logp. rewrite Hmu, Hrho.
  rewrite calc_log_likelihood_ok by assumption. simpl.
  unfold calc_log_prior.
  split; [ | split].
  - intros ->. rewrite py_div_zero. reflexivity.
  - intros Hs ->. rewrite py_div_ok by assumption. simpl.
    rewrite Rmult_0_l, py_pow_half_ok by lra. simpl.
    rewrite sqrt_0, py_div_zero. reflexivity.
  - intros Hs Hr. rewrite py_div_ok by assumption. simpl.
    rewrite py_pow_half_neg by nra. reflexivity.
Qed.

Lemma marginal_logp_bad_hypers_witness :
  marginal_logp (fun _ _ _ => 0)
    {| super := Normal.Build 0 0 0 0 1 0 1; mu := Some 0; rho := Some 1 |}
  = Raise ZeroDivisionError.
Proof.
  apply (proj1 (marginal_logp_bad_hypers (fun _ _ _ => 0)
                  {| super := Normal.Build 0 0 0 0 1 0 1;
                     mu := Some 0; rho := Some 1 |} 0 1
                  eq_refl eq_refl Rlt_0_1)).
  reflexivity.
Defined.

(** ** The marginal log-probability and the data *)

(** The value of [marginal_logp()] on a state inside its domain. *)
Lemma marginal_logp_value (gamma_logpdf : R -> R -> R -> R)
    (N : Z) (sum_x sum_x_sq m r s nu mu0 rho0 : R) :
  0 < rho0 -> 0 < r -> s <> 0 ->
  marginal_logp gamma_logpdf
    {| super := Normal.Build N sum_x sum_x_sq m r s nu;
       mu := Some mu0; rho := Some rho0 |}
  = Ret (- (IZR N / 2) * ln (2 * PI) + (IZR N / 2) * ln rho0
         - (rho0 / 2) * (IZR N * mu0 ^ 2 - 2 * mu0 * sum_x + sum_x_sq)
         + (gamma_logpdf rho0 (nu / 2) (2 / s)
            + norm_logpdf mu0 m (1 / sqrt (r * rho0)))).
Proof.
  intros Hpos Hr Hs. unfold marginal_logp. simpl.
  rewrite calc_log_likelihood_ok by assumption.
  rewrite calc_log_prior_ok by assumption.
  reflexivity.
Qed.

(** X5: for a component that holds no data ([N = 0], [sum_x = 0],
    [sum_x_sq = 0]) the log-likelihood is 0 and [marginal_logp()] is the
    log-prior of the latent parameters, errors of the log-prior included. *)
Theorem marginal_logp_empty_component :
  forall (gamma_logpdf : R -> R -> R -> R) (m r s nu mu0 rho0 : R),
    0 < rho0 ->
    calc_log_likelihood 0 0 0 (Some rho0) (Some mu0) = Ret 0
    /\ marginal_logp gamma_logpdf
         {| super := Normal.Build 0 0 0 m r s nu;
            mu := Some mu0; rho := Some rho0 |}
       = calc_log_prior gamma_logpdf (Some mu0) (Some rho0) m r s nu.
Proof.
  intros gamma_logpdf m r s nu mu0 rho0 Hpos.
  assert (E : calc_log_likelihood 0 0 0 (Some rho0) (Some mu0) = Ret 0).
  { rewrite calc_log_likelihood_ok by assumption. f_equal. field. }
  split; [exact E | ].
  unfold marginal_logp. simpl. rewrite E. simpl.
  unfold calc_log_prior, py_div, py_pow_half.
  destruct (Req_dec_T s 0) as [Es | NEs]; simpl; [reflexivity | ].
  destruct (Rlt_dec (r * rho0) 0) as [L | NL]; simpl; [reflexivity | ].
  destruct (Req_dec_T (sqrt (r * rho0)) 0) as [Eq | NEq]; simpl;
    [reflexivity | ].
  f_equal. ring.
Qed.

Lemma marginal_logp_empty_component_witness :
  marginal_logp (fun _ _ _ => 0)
    {| super := Normal.Build 0 0 0 0 1 1 1; mu := Some 0; rho := Some 1 |}
  = calc_log_prior (fun _ _ _ => 0) (Some 0) (Some 1) 0 1 1 1.
Proof.
  apply (proj2 (marginal_logp_empty_component (fun _ _ _ => 0)
                  0 1 1 1 0 1 Rlt_0_1)).
Defined.

(** X6: the chain rule of the uncollapsed model.  Adding a datum [x] to the
    sufficient statistics ([N + 1], [sum_x + x], [sum_x_sq + x*x]) with the
    latent parameters held fixed adds [predictive_logp(x)] to
    [marginal_logp()]. *)
Theorem marginal_logp_incorporate :
  forall (gamma_logpdf : R -> R -> R -> R) (N : Z)
         (sum_x sum_x_sq m r s nu mu0 rho0 x : R),
    0 < rho0 -> 0 < r -> s <> 0 ->
    exists v p,
      marginal_logp gamma_logpdf
        {| super := Normal.Build N sum_x sum_x_sq m r s nu;
           mu := Some mu0; rho := Some rho0 |} = Ret v
      /\ predictive_logp
           {| super := Normal.Build N sum_x sum_x_sq m r s nu;
              mu := Some mu0; rho := Some rho0 |} x = Ret p
      /\ marginal_logp gamma_logpdf
           {| super := Normal.Build (N + 1) (sum_x + x) (sum_x_sq + x * x)
                         m r s nu;
              mu := Some mu0; rho := Some rho0 |} = Ret (v + p).
Proof.
  intros gamma_logpdf N sum_x sum_x_sq m r s nu mu0 rho0 x Hpos Hr Hs.
  eexists. eexists.
  split; [apply marginal_logp_value; assumption | ].
  split; [apply calc_predictive_logp_ok; assumption | ].
  rewrite marginal_logp_value by assumption.
  f_equal. rewrite (norm_logpdf_precision x mu0 rho0) by assumption.
  rewrite plus_IZR. field.
Qed.

Lemma marginal_logp_incorporate_witness :
  exists v p,
    marginal_logp (fun _ _ _ => 0)
      {| super := Normal.Build 2 3 5 0 1 1 1;
         mu := Some 2; rho := Some 4 |} = Ret v
    /\ predictive_logp
         {| super := Normal.Build 2 3 5 0 1 1 1;
            mu := Some 2; rho := Some 4 |} 3 = Ret p
    /\ marginal_logp (fun _ _ _ => 0)
         {| super := Normal.Build (2 + 1) (3 + 3) (5 + 3 * 3) 0 1 1 1;
            mu := Some 2; rho := Some 4 |} = Ret (v + p).
Proof.
  apply (marginal_logp_incorporate (fun _ _ _ => 0) 2 3 5 0 1 1 1 2 4 3);
    lra.
Defined.

(** X8: [predictive_logp(x)] written with the precision is
    [-log(2*pi)/2 + log(rho)/2 - (rho/2)*(x - mu)**2]; so it is highest at
    [x = mu] and falls with the squared distance of [x] from [mu]. *)
Theorem predictive_logp_mode :
  forall (stats : Normal.t) (mu0 rho0 x : R),
    0 < rho0 ->
    exists v vmu,
      predictive_logp {| super := stats; mu := Some mu0; rho := Some rho0 |} x
      = Ret v
      /\ predictive_logp
           {| super := stats; mu := Some mu0; rho := Some rho0 |} mu0
         = Ret vmu
      /\ vmu = - ln (2 * PI) / 2 + ln rho0 / 2
      /\ v = vmu - rho0 / 2 * (x - mu0) ^ 2
      /\ v <= vmu.
Proof.
  intros stats mu0 rho0 x Hpos.
  exists (norm_logpdf x mu0 (1 / sqrt rho0)),
         (norm_logpdf mu0 mu0 (1 / sqrt rho0)).
  split; [apply calc_predictive_logp_ok; assumption | ].
  split; [apply calc_predictive_logp_ok; assumption | ].
  rewrite !norm_logpdf_precision by assumption.
  split; [field | ]. split; [field | ].
  pose proof (pow2_ge_0 (x - mu0)) as Hsq.
  assert (0 <= rho0 / 2 * (x - mu0) ^ 2).
  { apply Rmult_le_pos; lra. }
  lra.
Qed.

Lemma predictive_logp_mode_witness :
  exists v vmu,
    predictive_logp
      {| super := Normal.Build 3 6 14 0 1 1 1; mu := Some 2; rho := Some 4 |} 1
    = Ret v
    /\ predictive_logp
         {| super := Normal.Build 3 6 14 0 1 1 1;
            mu := Some 2; rho := Some 4 |} 2
       = Ret vmu
    /\ vmu = - ln (2 * PI) / 2 + ln 4 / 2
    /\ v = vmu - 4 / 2 * (1 - 2) ^ 2
    /\ v <= vmu.
Proof.
  apply (predictive_logp_mode (Normal.Build 3 6 14 0 1 1 1) 2 4 1). lra.
Defined.

(** X9: for a component with data ([N > 0]) and any positive precision, the
    log-likelihood as a function of [mu] is highest at the sample mean
    [sum_x / N]. *)
Theorem calc_log_likelihood_max_at_mean :
  forall (N : Z) (sum_x sum_x_sq mu0 rho0 : R),
    (0 < N)%Z -> 0 < rho0 ->
    exists v vmean,
      calc_log_likelihood N sum_x sum_x_sq (Some rho0) (Some mu0) = Ret v
      /\ calc_log_likelihood N sum_x sum_x_sq (Some rho0)
           (Some (sum_x / IZR N)) = Ret vmean
      /\ v = vmean - rho0 / 2 * IZR N * (mu0 - sum_x / IZR N) ^ 2
      /\ v <= vmean.
Proof.
  intros N sum_x sum_x_sq mu0 rho0 HN Hpos.
  assert (Hn : 0 < IZR N) by (apply IZR_lt; exact HN).
  eexists. eexists.
  split; [apply calc_log_likelihood_ok; assumption | ].
  split; [apply calc_log_likelihood_ok; assumption | ].
  assert (E : - (IZR N / 2) * ln (2 * PI) + IZR N / 2 * ln rho0
              - rho0 / 2 * (IZR N * mu0 ^ 2 - 2 * mu0 * sum_x + sum_x_sq)
              = - (IZR N / 2) * ln (2 * PI) + IZR N / 2 * ln rho0
                - rho0 / 2
                  * (IZR N * (sum_x / IZR N) ^ 2
                     - 2 * (sum_x / IZR N) * sum_x + sum_x_sq)
                - rho0 / 2 * IZR N * (mu0 - sum_x / IZR N) ^ 2).
  { field. lra. }
  split; [exact E | ].
  rewrite E.
  pose proof (pow2_ge_0 (mu0 - sum_x / IZR N)) as Hsq.
  assert (0 <= rho0 / 2 * IZR N * (mu0 - sum_x / IZR N) ^ 2).
  { apply Rmult_le_pos; [ | exact Hsq]. apply Rmult_le_pos; lra. }
  lra.
Qed.

Lemma calc_log_likelihood_max_at_mean_witness :
  exists v vmean,
    calc_log_likelihood 3 6 14 (Some 4) (Some 0) = Ret v
    /\ calc_log_likelihood 3 6 14 (Some 4) (Some (6 / 3)) = Ret vmean
    /\ v = vmean - 4 / 2 * 3 * (0 - 6 / 3) ^ 2
    /\ v <= vmean.
Proof.
  apply (calc_log_likelihood_max_at_mean 3 6 14 0 4); [lia | lra].
Defined.

(** X10: doubling the precision with everything else fixed changes the
    log-likelihood by [(N/2)*log(2)] minus
    [(rho/2)*(N*mu**2 - 2*mu*sum_x + sum_x_sq)]. *)
Theorem calc_log_likelihood_double_rho :
  forall (N : Z) (sum_x sum_x_sq mu0 rho0 : R),
    0 < rho0 ->
    exists v v2,
      calc_log_likelihood N sum_x sum_x_sq (Some rho0) (Some mu0) = Ret v
      /\ calc_log_likelihood N sum_x sum_x_sq (Some (2 * rho0)) (Some mu0)
         = Ret v2
      /\ v2 - v
         = IZR N / 2 * ln 2
           - rho0 / 2 * (IZR N * mu0 ^ 2 - 2 * mu0 * sum_x + sum_x_sq).
Proof.
  intros N sum_x sum_x_sq mu0 rho0 Hpos.
  eexists. eexists.
  split; [apply calc_log_likelihood_ok; assumption | ].
  split; [apply calc_log_likelihood_ok; lra | ].
  rewrite (ln_mult 2 rho0) by lra. field.
Qed.

Lemma calc_log_likelihood_double_rho_witness :
  exists v v2,
    calc_log_likelihood 3 6 14 (Some 4) (Some 2) = Ret v
    /\ calc_log_likelihood 3 6 14 (Some (2 * 4)) (Some 2) = Ret v2
    /\ v2 - v = 3 / 2 * ln 2 - 4 / 2 * (3 * 2 ^ 2 - 2 * 2 * 6 + 14).
Proof.
  apply (calc_log_likelihood_double_rho 3 6 14 2 4). lra.
Defined.

(** X14: the log-prior written with the precision: its Normal term is the
    log-density of [mu] with mean [m] and precision [r*rho] (the class
    docstring puts [r] on the data instead). *)
Theorem calc_log_prior_precision :
  forall (gamma_logpdf : R -> R -> R -> R) (mu0 rho0 m r s nu : R),
    0 < rho0 -> 0 < r -> s <> 0 ->
    calc_log_prior gamma_logpdf (Some mu0) (Some rho0) m r s nu
    = Ret (gamma_logpdf rho0 (nu / 2) (2 / s)
           + (- ln (2 * PI) / 2 + ln (r * rho0) / 2
              - r * rho0 / 2 * (mu0 - m) ^ 2)).
Proof.
  intros gamma_logpdf mu0 rho0 m r s nu Hpos Hr Hs.
  rewrite calc_log_prior_ok by assumption.
  rewrite norm_logpdf_precision by (apply Rmult_lt_0_compat; assumption).
  reflexivity.
Qed.

Lemma calc_log_prior_precision_witness :
  calc_log_prior (fun _ _ _ => 0) (Some 2) (Some 4) 0 1 1 1
  = Ret (0 + (- ln (2 * PI) / 2 + ln (1 * 4) / 2 - 1 * 4 / 2 * (2 - 0) ^ 2)).
Proof.
  apply (calc_log_prior_precision (fun _ _ _ => 0) 2 4 0 1 1 1); lra.
Defined.

(** X7: on the sufficient statistics of a data set (its length, sum and sum
    of squares) [calc_log_likelihood] is the sum of [predictive_logp(x)]
    over the points [x] of the set: the statistics lose nothing the
    likelihood needs. *)
Theorem calc_log_likelihood_sum_of_predictive :
  forall (stats : Normal.t) (xs : list R) (mu0 rho0 : R),
    0 < rho0 ->
    calc_log_likelihood (Z.of_nat (length xs)) (sum_list xs) (sum_sq_list xs)
      (Some rho0) (Some mu0)
    = predictive_logp_sum
        {| super := stats; mu := Some mu0; rho := Some rho0 |} xs.
Proof.
  intros stats xs mu0 rho0 Hpos.
  rewrite calc_log_likelihood_of_data by assumption.
  induction xs as [ | x xs IH].
  - reflexivity.
  - simpl predictive_logp_sum. rewrite <- IH.
    unfold predictive_logp. simpl mu. simpl rho.
    rewrite calc_predictive_logp_ok by assumption.
    reflexivity.
Qed.

Lemma calc_log_likelihood_sum_of_predictive_witness :
  calc_log_likelihood (Z.of_nat (length (1 :: 2 :: 3 :: nil)))
    (sum_list (1 :: 2 :: 3 :: nil)) (sum_sq_list (1 :: 2 :: 3 :: nil))
    (Some 4) (Some 2)
  = predictive_logp_sum
      {| super := Normal.Build 0 0 0 0 1 1 1; mu := Some 2; rho := Some 4 |}
      (1 :: 2 :: 3 :: nil).
Proof.
  apply (calc_log_likelihood_sum_of_predictive
           (Normal.Build 0 0 0 0 1 1 1) (1 :: 2 :: 3 :: nil) 2 4).
  lra.
Defined.

(** ** The latent parameters through construction and transition *)

(** [transition_params] reads the parent's attributes only. *)
Lemma transition_params_reads_super {parent : NormalClass}
    (a b : NormalUC) :
  super a = super b -> transition_params a = transition_params b.
Proof.
  destruct a as [sa mua rhoa], b as [sb mub rhob]. simpl.
  intros ->. reflexivity.
Qed.


(** X11: a latent parameter supplied alone is discarded: the constructor
    called with only [mu] or only [rho] is the constructor called with
    neither, whatever the parent class does. *)
Theorem init_discards_lone_latent :
  forall (parent : NormalClass) (N : Z) (sum_x sum_x_sq : R)
         (mu0 rho0 : option R) (m r s nu : R),
    mu0 = None \/ rho0 = None ->
    __init__ N sum_x sum_x_sq mu0 rho0 m r s nu
    = __init__ N sum_x sum_x_sq None None m r s nu.
Proof.
  intros parent N sum_x sum_x_sq mu0 rho0 m r s nu Hnone.
  assert (Hb : (is_None mu0 || is_None rho0)%bool = true).
  { destruct Hnone as [-> | ->]; simpl; [reflexivity | ].
    destruct mu0; reflexivity. }
  unfold __init__. rewrite Hb. reflexivity.
Qed.

Lemma init_discards_lone_latent_witness :
  __init__ (parent := Normal_spec) 0 0 0 (Some 5) None 0 1 1 1
  = __init__ (parent := Normal_spec) 0 0 0 None None 0 1 1 1.
Proof.
  apply (init_discards_lone_latent Normal_spec 0 0 0 (Some 5) None 0 1 1 1).
  right. reflexivity.
Defined.



(** X13: [transition_params] forgets the current latent parameters: a state
    reached by two transitions in a row can be reached by one transition
    from the starting state, and one reached by a single transition can be
    reached again after any first transition, whatever the parent class
    does. *)
Theorem transition_params_twice :
  forall (parent : NormalClass) (self self1 self2 : NormalUC),
    returns (transition_params self) self1 ->
    (returns (transition_params self1) self2
     <-> returns (transition_params self) self2)
    /\ (returns (transition_params self) self2 ->
        returns (s <- transition_params self ;; transition_params s) self2).
Proof.
  intros parent self self1 self2 H1.
  assert (E : transition_params self1 = transition_params self).
  { apply transition_params_reads_super.
    apply (transition_params_super self self1 H1). }
  split.
  - rewrite E. reflexivity.
  - intros H2. apply (returns_bind _ _ self1); [exact H1 | ].
    rewrite E. exact H2.
Qed.

Lemma transition_params_twice_witness :
  returns
    (s <- transition_params (parent := Normal_spec)
            {| super := Normal.Build 3 6 14 0 1 1 1;
               mu := None; rho := None |} ;;
     transition_params (parent := Normal_spec) s)
    {| super := Normal.Build 3 6 14 0 1 1 1; mu := Some 5; rho := Some 2 |}.
Proof.
  apply (proj2 (transition_params_twice Normal_spec
                  {| super := Normal.Build 3 6 14 0 1 1 1;
                     mu := None; rho := None |}
                  {| super := Normal.Build 3 6 14 0 1 1 1;
                     mu := Some 0; rho := Some 1 |}
                  {| super := Normal.Build 3 6 14 0 1 1 1;
                     mu := Some 5; rho := Some 2 |}
                  (returns_Gamma _ _ _ 1 _
                     (returns_Normal _ _ _ 0 _ (returns_Ret _))))).
  apply (returns_Gamma _ _ _ 2).
  apply (returns_Normal _ _ _ 5).
  apply returns_Ret.
Defined.
